(** * Crossref PID provider: a shallow embedding of
    [invenio_pidstore/providers/crossref.py] and the properties of its
    four lifecycle operations, its constructor and its factory.

    The provider is an adapter between a local persistent-identifier record
    ([self.pid]) and a remote registration client ([self.api]).  Both are
    mutable Python objects; here they live in an explicit world that every
    operation threads through, together with the trace of the calls made on
    the two collaborators and the log records written. *)

From stdpp Require Import base strings list gmap.

Set Default Proof Using "Type".

(** ** Python values that cross the adapter's boundary *)

(** Modelled from the spec: the status enumeration of
    [invenio_pidstore.models.PIDStatus] (models.py), with the four members
    the data model lists. *)
Inductive PIDStatus : Type := NEW | RESERVED | REGISTERED | DELETED.

Global Instance PIDStatus_eq_dec : EqDecision PIDStatus.
Proof. solve_decision. Defined.

(** Configuration entries, keyword arguments and what the remote client
    returns.  The adapter never looks inside them. *)
Inductive PyValue : Type :=
  | PyNone
  | PyBool (b : bool)
  | PyStr (s : string)
  | PyStrList (l : list string)
  | PyStatus (s : PIDStatus).

Global Instance PyValue_eq_dec : EqDecision PyValue.
Proof. solve_decision. Defined.

(** ** Exceptions *)

(** The exception classes the provider imports from the client library,
    and one class standing for every exception outside that family (what a
    local record method raises, for instance).  An exception is identified
    with its most specific class. *)
Inductive exn : Type :=
  | CrossrefError
  | CrossrefGoneError
  | CrossrefNoContentError
  | CrossrefNotFoundError
  | HttpError
  | OtherException.

Global Instance exn_eq_dec : EqDecision exn.
Proof. solve_decision. Defined.

(** [issubclass e c]: an exception of class [e] is caught by
    [except c].  The three distinguished conditions derive from
    [CrossrefError] in the client library; only the choice between logging
    and not logging a failure depends on that. *)
Definition issubclass (e c : exn) : bool :=
  match c, e with
  | CrossrefError, (CrossrefError | CrossrefGoneError
                    | CrossrefNoContentError | CrossrefNotFoundError) => true
  | CrossrefGoneError, CrossrefGoneError => true
  | CrossrefNoContentError, CrossrefNoContentError => true
  | CrossrefNotFoundError, CrossrefNotFoundError => true
  | HttpError, HttpError => true
  | OtherException, OtherException => true
  | _, _ => false
  end.

(** [except (c1, c2, ...)] *)
Definition isinstance (cs : list exn) (e : exn) : bool :=
  existsb (issubclass e) cs.

(** The three conditions that [sync_status] consumes as answers. *)
Definition distinguished (e : exn) : bool :=
  match e with
  | CrossrefGoneError | CrossrefNoContentError | CrossrefNotFoundError => true
  | _ => false
  end.

Inductive result (A : Type) : Type :=
  | Ok (a : A)
  | Raise (e : exn).
Arguments Ok {A} a.
Arguments Raise {A} e.

(** ** The local record *)

(** Modelled from the spec: the identifier record of
    [invenio_pidstore.models.PersistentIdentifier] (models.py), with the two
    attributes the adapter reads, a value and a status. *)
Record PersistentIdentifier : Type := mkPid {
  pid_value : string;
  status : PIDStatus
}.

Global Instance PersistentIdentifier_eq_dec : EqDecision PersistentIdentifier.
Proof. solve_decision. Defined.

(** Modelled from the spec: [PersistentIdentifier.is_new] (models.py), the
    query "status NEW". *)
Definition is_new (p : PersistentIdentifier) : bool :=
  match status p with NEW => true | _ => false end.

(** Modelled from the spec: [PersistentIdentifier.is_deleted] (models.py),
    the query "currently marked deleted". *)
Definition is_deleted (p : PersistentIdentifier) : bool :=
  match status p with DELETED => true | _ => false end.

(** The three local mutators of the record.  A method of a Python object
    may change the object and then return or raise, so each is a function
    from the record to an outcome and the record it leaves behind. *)
Record PidMethods : Type := mkPidMethods {
  pid_register : PersistentIdentifier -> result PyValue * PersistentIdentifier;
  pid_delete : PersistentIdentifier -> result PyValue * PersistentIdentifier;
  pid_sync_status :
    PIDStatus -> PersistentIdentifier -> result PyValue * PersistentIdentifier
}.

(** ** The remote client *)

(** The five operations of the client, with their arguments. *)
Inductive Call : Type :=
  | MetadataPost (doc : PyValue)
  | DoiPost (value url : string)
  | DoiGet (value : string)
  | MetadataGet (value : string)
  | MetadataDelete (value : string).

Global Instance Call_eq_dec : EqDecision Call.
Proof. solve_decision. Defined.

(** ** Traces and log records *)

Inductive Mutator : Type :=
  | PidRegister
  | PidDelete
  | PidSyncStatus (s : PIDStatus).

Global Instance Mutator_eq_dec : EqDecision Mutator.
Proof. solve_decision. Defined.

(** One entry per call on a collaborator, in program order.  A remote entry
    records the exception the call ended with, if any. *)
Inductive Event : Type :=
  | EvLocal (m : Mutator)
  | EvRemote (c : Call) (raised : option exn).

Global Instance Event_eq_dec : EqDecision Event.
Proof. solve_decision. Defined.

Inductive LogLevel : Type := INFO | ERROR.

Record LogRecord : Type := mkLog {
  log_level : LogLevel;
  log_msg : string;
  log_pid : string
}.

Definition raised_of {A} (o : result A) : option exn :=
  match o with Ok _ => None | Raise e => Some e end.

(** The remote calls of a trace, in order. *)
Fixpoint remote_calls (tr : list Event) : list Call :=
  match tr with
  | [] => []
  | EvRemote c _ :: tr' => c :: remote_calls tr'
  | EvLocal _ :: tr' => remote_calls tr'
  end.

(** The local mutators of a trace, in order. *)
Fixpoint local_calls (tr : list Event) : list Mutator :=
  match tr with
  | [] => []
  | EvLocal m :: tr' => m :: local_calls tr'
  | EvRemote _ _ :: tr' => local_calls tr'
  end.

(** A remote call has answered when it returned, or ended with one of the
    three conditions that [sync_status] reads as an answer. *)
Definition answered (raised : option exn) : bool :=
  match raised with
  | None => true
  | Some e => distinguished e
  end.

(** The identifier-probe is conclusive when it returned, or ended with
    "gone" or "no content". *)
Definition conclusive (raised : option exn) : bool :=
  match raised with
  | None | Some CrossrefGoneError | Some CrossrefNoContentError => true
  | Some _ => false
  end.

(** [guarded_from confirmed seen ok tr]: every local mutator of [tr] comes
    after at least one remote call, and after confirmed remote calls only.
    [seen] tells whether a remote call was made before [tr], [ok] whether
    all of those were confirmed. *)
Fixpoint guarded_from (confirmed : option exn -> bool) (seen ok : bool)
    (tr : list Event) : bool :=
  match tr with
  | [] => true
  | EvLocal _ :: tr' => seen && ok && guarded_from confirmed seen ok tr'
  | EvRemote _ raised :: tr' =>
      guarded_from confirmed true (ok && confirmed raised) tr'
  end.

Definition guarded (confirmed : option exn -> bool) (tr : list Event) : bool :=
  guarded_from confirmed false true tr.

(** ** The world and the monad of provider operations *)

Section Provider.

(** [R] is the state of the remote service as the client sees it; [api]
    is the client: a call changes the service and returns or raises. *)
Context {R : Type}.
Variable api : Call -> R -> result PyValue * R.
Variable pm : PidMethods.

Record World : Type := mkWorld {
  w_pid : PersistentIdentifier;
  w_remote : R;
  w_trace : list Event;
  w_log : list LogRecord
}.

Definition M (A : Type) : Type := World -> result A * World.

Definition ret {A} (a : A) : M A := fun w => (Ok a, w).

Definition bind {A B} (f : A -> M B) (m : M A) : M B :=
  fun w =>
    match m w with
    | (Ok a, w') => f a w'
    | (Raise e, w') => (Raise e, w')
    end.

Global Instance M_ret : MRet M := @ret.
Global Instance M_bind : MBind M := @bind.

(** [raise] inside an except clause: re-raise the exception being handled. *)
Definition raise {A} (e : exn) : M A := fun w => (Raise e, w).

(** [try: body except c1: h1 except c2: h2 ...]: the first clause whose
    classes match handles the exception; an exception no clause matches, or
    one raised by a handler, propagates. *)
Fixpoint find_clause {A} (clauses : list (list exn * (exn -> M A))) (e : exn)
  : option (exn -> M A) :=
  match clauses with
  | [] => None
  | (cs, h) :: rest => if isinstance cs e then Some h else find_clause rest e
  end.

Definition try_except {A} (body : M A)
    (clauses : list (list exn * (exn -> M A))) : M A :=
  fun w =>
    match body w with
    | (Ok a, w') => (Ok a, w')
    | (Raise e, w') =>
        match find_clause clauses e with
        | Some h => h e w'
        | None => (Raise e, w')
        end
    end.

Definition emit (ev : Event) (w : World) : World :=
  mkWorld (w_pid w) (w_remote w) (w_trace w ++ [ev]) (w_log w).

(** [self.api.<operation>(...)] *)
Definition self_api (c : Call) : M PyValue :=
  fun w =>
    let '(o, r') := api c (w_remote w) in
    (o, emit (EvRemote c (raised_of o))
          (mkWorld (w_pid w) r' (w_trace w) (w_log w))).

(** [self.pid.<mutator>(...)] *)
Definition self_pid_call (m : Mutator)
    (f : PersistentIdentifier -> result PyValue * PersistentIdentifier)
  : M PyValue :=
  fun w =>
    let '(o, p') := f (w_pid w) in
    (o, emit (EvLocal m) (mkWorld p' (w_remote w) (w_trace w) (w_log w))).

Definition self_pid_register : M PyValue :=
  self_pid_call PidRegister (pid_register pm).
Definition self_pid_delete : M PyValue :=
  self_pid_call PidDelete (pid_delete pm).
Definition self_pid_sync_status (s : PIDStatus) : M PyValue :=
  self_pid_call (PidSyncStatus s) (pid_sync_status pm s).

(** [self.pid], read. *)
Definition self_pid : M PersistentIdentifier := fun w => (Ok (w_pid w), w).

(** [logger.info(msg, extra=dict(pid=self.pid))] and [logger.exception]. *)
Definition logger (lvl : LogLevel) (msg : string) : M unit :=
  fun w =>
    (Ok tt, mkWorld (w_pid w) (w_remote w) (w_trace w)
              (w_log w ++ [mkLog lvl msg (pid_value (w_pid w))])).
Definition logger_info := logger INFO.
Definition logger_exception := logger ERROR.

(** ** The four operations of [CrossrefProvider] *)

(** [register(self, url, doc)] *)
Definition register (url : string) (doc : PyValue) : M bool :=
  _ ← try_except
        (_ ← self_pid_register;
         _ ← self_api (MetadataPost doc);
         p ← self_pid;
         _ ← self_api (DoiPost (pid_value p) url);
         mret tt)
        [ ([CrossrefError; HttpError],
           fun e => _ ← logger_exception "Failed to register in Crossref";
                    raise e) ];
  _ ← logger_info "Successfully registered in Crossref";
  mret true.

(** [update(self, url, doc)] *)
Definition update (url : string) (doc : PyValue) : M bool :=
  p ← self_pid;
  _ ← (if is_deleted p then logger_info "Reactivate in Crossref" else mret tt);
  _ ← try_except
        (_ ← self_api (MetadataPost doc);
         p ← self_pid;
         _ ← self_api (DoiPost (pid_value p) url);
         mret tt)
        [ ([CrossrefError; HttpError],
           fun e => _ ← logger_exception "Failed to update in Crossref";
                    raise e) ];
  p ← self_pid;
  _ ← (if is_deleted p
       then _ ← self_pid_sync_status REGISTERED; mret tt
       else mret tt);
  _ ← logger_info "Successfully updated in Crossref";
  mret true.

(** [delete(self)] *)
Definition delete : M bool :=
  _ ← try_except
        (p ← self_pid;
         if is_new p
         then _ ← self_pid_delete; mret tt
         else _ ← self_pid_delete;
              p ← self_pid;
              _ ← self_api (MetadataDelete (pid_value p));
              mret tt)
        [ ([CrossrefError; HttpError],
           fun e => _ ← logger_exception "Failed to delete in Crossref";
                    raise e) ];
  _ ← logger_info "Successfully deleted in Crossref";
  mret true.

(** The except clauses shared by the two probes of [sync_status]; [status]
    is the local variable as it stands when the probe starts. *)
Definition probe_clauses (status : option PIDStatus)
  : list (list exn * (exn -> M (option PIDStatus))) :=
  [ ([CrossrefGoneError], fun _ => mret (Some DELETED));
    ([CrossrefNoContentError], fun _ => mret (Some REGISTERED));
    ([CrossrefNotFoundError], fun _ => mret status) ].

(** [sync_status(self)] *)
Definition sync_status : M bool :=
  let status : option PIDStatus := None in
  status ← try_except
        (status ← try_except
             (p ← self_pid;
              _ ← self_api (DoiGet (pid_value p));
              mret (Some REGISTERED))
             (probe_clauses status);
         match status with
         | None =>
             try_except
               (p ← self_pid;
                _ ← self_api (MetadataGet (pid_value p));
                mret (Some RESERVED))
               (probe_clauses status)
         | Some _ => mret status
         end)
        [ ([CrossrefError; HttpError],
           fun e => _ ← logger_exception "Failed to sync status from Crossref";
                    raise e) ];
  let status := match status with None => NEW | Some s => s end in
  _ ← self_pid_sync_status status;
  _ ← logger_info "Successfully synced status from Crossref";
  mret true.

(** Running an operation on a record and a remote state, from an empty
    trace and an empty log. *)
Definition run {A} (m : M A) (p : PersistentIdentifier) (r : R)
  : result A * World :=
  m (mkWorld p r [] []).

End Provider.

(** ** Construction *)

(** The provider object: its two attributes. *)
Record Provider (C : Type) : Type := mkProvider {
  prov_pid : PersistentIdentifier;
  prov_api : C
}.
Arguments mkProvider {C} _ _.
Arguments prov_pid {C} _.
Arguments prov_api {C} _.

(** [current_app.config.get(key, default)]; [default] is [None] when the
    call gives none. *)
Definition config_get (config : gmap string PyValue) (key : string)
    (dflt : PyValue) : PyValue :=
  default dflt (config !! key).

(** The class attributes of a provider class. *)
Record ProviderClass : Type := mkClass {
  pid_type : string;
  pid_provider : string;
  default_status : PIDStatus
}.

(** The keyword arguments [create] forwards: those of the record's
    creation and the optional client of the constructor. *)
Record CreateKwargs (C : Type) : Type := mkKwargs {
  kw_pid_type : option string;
  kw_object_type : option string;
  kw_object_uuid : option string;
  kw_status : option PIDStatus;
  kw_client : option C
}.
Arguments mkKwargs {C} _ _ _ _ _.
Arguments kw_pid_type {C} _.
Arguments kw_object_type {C} _.
Arguments kw_object_uuid {C} _.
Arguments kw_status {C} _.
Arguments kw_client {C} _.

Section Construction.

(** [C] is the type of client objects and [CrossrefXMLClient] the
    constructor of the client library, applied to its keyword arguments in
    the order the call writes them. *)
Context {C : Type}.
Variable CrossrefXMLClient : list (string * PyValue) -> C.
Variable config : gmap string PyValue.

(** The class attributes of [CrossrefProvider]. *)
Definition CrossrefProvider : ProviderClass :=
  {| pid_type := "doi";
     pid_provider := "crossref";
     default_status := NEW |}.

(** The keyword arguments of the default client. *)
Definition default_client_kwargs : list (string * PyValue) :=
  [ ("username", config_get config "PIDSTORE_CROSSREF_USERNAME" PyNone);
    ("password", config_get config "PIDSTORE_CROSSREF_PASSWORD" PyNone);
    ("prefixes", config_get config "PIDSTORE_CROSSREF_DOI_PREFIXES"
                   (PyStrList ["10.5555"]));
    ("test_mode", config_get config "PIDSTORE_CROSSREF_TESTMODE"
                    (PyBool false)) ].

(** [__init__(self, pid, client=None)].  The call of the base constructor
    stores the record in [self.pid]. *)
Definition __init__ (pid : PersistentIdentifier) (client : option C)
  : Provider C :=
  match client with
  | Some c => mkProvider pid c
  | None => mkProvider pid (CrossrefXMLClient default_client_kwargs)
  end.

(** Modelled from the spec: [BaseProvider.create] (providers/base.py),
    the factory that [CrossrefProvider.create] delegates to.  It creates the record with the status the caller gives
    and, when none is given, with the class's [default_status] (documented
    in crossref.py as the "Default status for newly created PIDs by this
    provider"), and returns the class instantiated on that record with the
    remaining keyword arguments. *)
Definition BaseProvider_create (cls : ProviderClass)
    (init : PersistentIdentifier -> option C -> Provider C)
    (value : string) (kwargs : CreateKwargs C) : Provider C :=
  init (mkPid value (default (default_status cls) (kw_status kwargs)))
       (kw_client kwargs).

(** [create(cls, pid_value, **kwargs)] *)
Definition create (value : string) (kwargs : CreateKwargs C) : Provider C :=
  BaseProvider_create CrossrefProvider __init__ value kwargs.

End Construction.

(** ** Reference models of the collaborators *)

(** Modelled from the spec: the three local transitions of
    [PersistentIdentifier] (models.py): "mark the identifier as registered
    locally", the local deletion, and the synchronization mutator by which
    "the local record's status is written". *)
Definition models_pid : PidMethods :=
  {| pid_register p := (Ok (PyBool true), mkPid (pid_value p) REGISTERED);
     pid_delete p := (Ok (PyBool true), mkPid (pid_value p) DELETED);
     pid_sync_status s p := (Ok (PyBool true), mkPid (pid_value p) s) |}.

(** A scripted client: the remote state is the list of outcomes still to
    be given, one per call; when the script is exhausted a call returns. *)
Definition scripted (c : Call) (script : list (result PyValue))
  : result PyValue * list (result PyValue) :=
  match script with
  | [] => (Ok PyNone, [])
  | o :: rest => (o, rest)
  end.

(** ** The inference table of [sync_status], as the specification words it *)

Inductive ProbeOutcome : Type :=
  | Success | Gone | NoContent | NotFound | OtherError.

Definition probe_outcome (o : result PyValue) : ProbeOutcome :=
  match o with
  | Ok _ => Success
  | Raise CrossrefGoneError => Gone
  | Raise CrossrefNoContentError => NoContent
  | Raise CrossrefNotFoundError => NotFound
  | Raise _ => OtherError
  end.

(** [inference_table o1 o2]: the status the table gives when the
    identifier-probe ends as [o1] and the metadata-probe (consulted only
    after "not found") as [o2]; [None] when the operation aborts. *)
Definition inference_table (o1 o2 : ProbeOutcome) : option PIDStatus :=
  match o1 with
  | Success => Some REGISTERED
  | NoContent => Some REGISTERED
  | Gone => Some DELETED
  | NotFound =>
      match o2 with
      | Success => Some RESERVED
      | Gone => Some DELETED
      | NoContent => Some REGISTERED
      | NotFound => Some NEW
      | OtherError => None
      end
  | OtherError => None
  end.

(** The operations of the adapter, and what counts as the remote client's
    confirmation for each: a call that returned, and for [sync_status] also
    a call that ended with one of the three distinguished conditions. *)
Inductive Operation : Type :=
  | OpRegister (url : string) (doc : PyValue)
  | OpUpdate (url : string) (doc : PyValue)
  | OpDelete
  | OpSyncStatus.

Definition exec {R} (api : Call -> R -> result PyValue * R) (pm : PidMethods)
    (op : Operation) : M bool :=
  match op with
  | OpRegister url doc => register api pm url doc
  | OpUpdate url doc => update api pm url doc
  | OpDelete => delete api pm
  | OpSyncStatus => sync_status api pm
  end.

Definition confirms (op : Operation) (raised : option exn) : bool :=
  match op with
  | OpSyncStatus => answered raised
  | _ => bool_decide (raised = None)
  end.

(** [confirmation op p pre]: the events [pre] are the whole confirmation
    that operation [op] on record [p] waits for.  For [register] and
    [update]: the metadata-post of the document and the mint of the record's
    value at the URL, both returned.  For [delete]: the metadata-delete of
    the record's value, returned.  For [sync_status]: the identifier-probe
    with a conclusive answer, or the identifier-probe with "not found"
    followed by the metadata-probe with an answer. *)
Definition confirmation (op : Operation) (p : PersistentIdentifier)
    (pre : list Event) : bool :=
  match op with
  | OpRegister url doc | OpUpdate url doc =>
      bool_decide (pre = [ EvRemote (MetadataPost doc) None;
                           EvRemote (DoiPost (pid_value p) url) None ])
  | OpDelete =>
      bool_decide (pre = [ EvRemote (MetadataDelete (pid_value p)) None ])
  | OpSyncStatus =>
      match pre with
      | [ EvRemote (DoiGet v) raised ] =>
          bool_decide (v = pid_value p) && conclusive raised
      | [ EvRemote (DoiGet v) (Some CrossrefNotFoundError);
          EvRemote (MetadataGet v') raised ] =>
          bool_decide (v = pid_value p) && bool_decide (v' = pid_value p)
          && answered raised
      | _ => false
      end
  end.

(** [mutations_confirmed op p pre tr]: every local mutator of [tr] is
    called when the events before it, [pre] and the part of [tr] already
    passed, are the whole confirmation of [op]. *)
Fixpoint mutations_confirmed (op : Operation) (p : PersistentIdentifier)
    (pre tr : list Event) : bool :=
  match tr with
  | [] => true
  | EvLocal m :: tr' =>
      confirmation op p pre
      && mutations_confirmed op p (pre ++ [EvLocal m]) tr'
  | ev :: tr' => mutations_confirmed op p (pre ++ [ev]) tr'
  end.

(** The record written by [logger.info] when an operation completes, and
    by [logger.exception] when its except clause catches a failure. *)
Definition success_msg (op : Operation) : string :=
  match op with
  | OpRegister _ _ => "Successfully registered in Crossref"
  | OpUpdate _ _ => "Successfully updated in Crossref"
  | OpDelete => "Successfully deleted in Crossref"
  | OpSyncStatus => "Successfully synced status from Crossref"
  end.

Definition failure_msg (op : Operation) : string :=
  match op with
  | OpRegister _ _ => "Failed to register in Crossref"
  | OpUpdate _ _ => "Failed to update in Crossref"
  | OpDelete => "Failed to delete in Crossref"
  | OpSyncStatus => "Failed to sync status from Crossref"
  end.

Global Instance LogLevel_eq_dec : EqDecision LogLevel.
Proof. solve_decision. Defined.

(** The failure records of a log. *)
Definition error_records (log : list LogRecord) : list LogRecord :=
  filter (fun l => log_level l = ERROR) log.

(** A client whose answers depend on the call alone: the remote service
    does not change between calls. *)
Definition stateless {R} (f : Call -> result PyValue) (c : Call) (r : R)
  : result PyValue * R :=
  (f c, r).

(** A record none of whose transitions goes through: each raises [e] and
    leaves the record as it is (a refused transition, a storage failure). *)
Definition refusing_pid (e : exn) : PidMethods :=
  {| pid_register p := (Raise e, p);
     pid_delete p := (Raise e, p);
     pid_sync_status _ p := (Raise e, p) |}.

(** ** Concrete inputs used to exercise the statements below *)

Definition example_doi : string := "10.5555/12345678".
Definition example_url : string := "https://example.org/record/1".
Definition example_doc : PyValue := PyStr "<doi_batch/>".
Definition example_pid (s : PIDStatus) : PersistentIdentifier :=
  mkPid example_doi s.

(** A configuration that sets the service URL and nothing else. *)
Definition example_config : gmap string PyValue :=
  {[ "PIDSTORE_CROSSREF_URL" := PyStr "https://test.crossref.org" ]}.

(** * Properties *)

(** Unfolds an operation down to the calls on its collaborators. *)
Ltac unfold_op :=
  unfold run, exec, register, update, delete, sync_status, probe_clauses,
    try_except, self_pid_register, self_pid_delete, self_pid_sync_status,
    self_pid_call, self_api, self_pid, logger_info, logger_exception, logger,
    raise, emit, mbind, mret, M_bind, M_ret, bind, ret;
  cbn.

(** Case analysis on the outcome of the next remote call. *)
Ltac next_call :=
  match goal with
  | |- context [?api ?c ?r] =>
      match type of (api c r) with
      | (result PyValue * _)%type =>
          let o := fresh "o" in
          let r' := fresh "r" in
          let E := fresh "E" in
          destruct (api c r) as [o r'] eqn:E;
          destruct o as [? | []];
          cbn in *
      end
  end.

(** Case analysis on the outcome of a local mutator. *)
Ltac next_local pm :=
  repeat match goal with
  | |- context [pid_register pm ?p] =>
      destruct (pid_register pm p) as [[?|[]] ?] eqn:?
  | |- context [pid_delete pm ?p] =>
      destruct (pid_delete pm p) as [[?|[]] ?] eqn:?
  | |- context [pid_sync_status pm ?s ?p] =>
      destruct (pid_sync_status pm s p) as [[?|[]] ?] eqn:?
  end;
  cbn in *.

(** Case analysis on the membership of an event in an explicit trace. *)
Ltac in_trace H :=
  apply list_elem_of_In in H; cbn in H;
  repeat match type of H with
         | _ \/ _ => destruct H as [H | H]
         | False => destruct H
         end;
  simplify_eq.

Section SyncStatus.

Context {R : Type}.
Variable api : Call -> R -> result PyValue * R.
Variable pm : PidMethods.

(** What [sync_status] does, in closed form: the identifier-probe, then the
    metadata-probe after "not found", then the mutator on the inferred
    status; the record is untouched until the mutator runs. *)
Lemma sync_status_run (p : PersistentIdentifier) (r : R) :
  let o1 := api (DoiGet (pid_value p)) r in
  let o2 := api (MetadataGet (pid_value p)) o1.2 in
  let out := run (sync_status api pm) p r in
  local_calls (w_trace out.2) =
    match inference_table (probe_outcome o1.1) (probe_outcome o2.1) with
    | Some s => [PidSyncStatus s]
    | None => []
    end /\
  w_pid out.2 =
    match inference_table (probe_outcome o1.1) (probe_outcome o2.1) with
    | Some s => (pid_sync_status pm s p).2
    | None => p
    end.
Proof.
  unfold_op. next_call; try (split; reflexivity).
  - destruct (pid_sync_status pm REGISTERED p) as [[?|?] ?]; split; reflexivity.
  - destruct (pid_sync_status pm DELETED p) as [[?|?] ?]; split; reflexivity.
  - destruct (pid_sync_status pm REGISTERED p) as [[?|?] ?]; split; reflexivity.
  - next_call; try (split; reflexivity).
    + destruct (pid_sync_status pm RESERVED p) as [[?|?] ?]; split; reflexivity.
    + destruct (pid_sync_status pm DELETED p) as [[?|?] ?]; split; reflexivity.
    + destruct (pid_sync_status pm REGISTERED p) as [[?|?] ?]; split; reflexivity.
    + destruct (pid_sync_status pm NEW p) as [[?|?] ?]; split; reflexivity.
Qed.

(** C1. For every pair of probe outcomes, [sync_status] calls the
    synchronization mutator exactly once with the status of the inference
    table (identifier-probe success or "no content": REGISTERED; "gone":
    DELETED; "not found": the metadata-probe decides, success RESERVED,
    "gone" DELETED, "no content" REGISTERED), leaves the record as that
    mutator leaves it, calls no mutator when the table has no entry, and
    writes NEW if and only if both probes raise "not found". *)
Theorem sync_status_inference_table (p : PersistentIdentifier) (r : R) :
  let o1 := api (DoiGet (pid_value p)) r in
  let o2 := api (MetadataGet (pid_value p)) o1.2 in
  let out := run (sync_status api pm) p r in
  local_calls (w_trace out.2) =
    match inference_table (probe_outcome o1.1) (probe_outcome o2.1) with
    | Some s => [PidSyncStatus s]
    | None => []
    end /\
  w_pid out.2 =
    match inference_table (probe_outcome o1.1) (probe_outcome o2.1) with
    | Some s => (pid_sync_status pm s p).2
    | None => p
    end /\
  (local_calls (w_trace out.2) = [PidSyncStatus NEW] <->
   probe_outcome o1.1 = NotFound /\ probe_outcome o2.1 = NotFound).
Proof.
  intros o1 o2 out.
  destruct (sync_status_run p r) as [Hcalls Hpid].
  fold o1 o2 out in Hcalls, Hpid.
  split; [exact Hcalls | split; [exact Hpid |]].
  rewrite Hcalls.
  destruct (probe_outcome o1.1), (probe_outcome o2.1); cbn;
    split; try discriminate; try (intros [? ?]; discriminate);
    try (split; reflexivity); try reflexivity.
Qed.

(** The trace of [sync_status], in closed form. *)
Lemma sync_status_trace (p : PersistentIdentifier) (r : R) :
  let o1 := api (DoiGet (pid_value p)) r in
  let o2 := api (MetadataGet (pid_value p)) o1.2 in
  let out := run (sync_status api pm) p r in
  let ev1 := EvRemote (DoiGet (pid_value p)) (raised_of o1.1) in
  let ev2 := EvRemote (MetadataGet (pid_value p)) (raised_of o2.1) in
  w_trace out.2 =
    match probe_outcome o1.1 with
    | Success | NoContent => [ev1; EvLocal (PidSyncStatus REGISTERED)]
    | Gone => [ev1; EvLocal (PidSyncStatus DELETED)]
    | OtherError => [ev1]
    | NotFound =>
        match inference_table NotFound (probe_outcome o2.1) with
        | Some s => [ev1; ev2; EvLocal (PidSyncStatus s)]
        | None => [ev1; ev2]
        end
    end /\
  (forall e, (raised_of o1.1 = Some e /\ distinguished e = false) \/
             (raised_of o1.1 = Some CrossrefNotFoundError /\
              raised_of o2.1 = Some e /\ distinguished e = false) ->
             out.1 = Raise e /\ w_pid out.2 = p).
Proof.
  unfold_op. next_call; next_call;
    repeat match goal with
    | |- context [pid_sync_status pm ?s p] =>
        destruct (pid_sync_status pm s p) as [[?|?] ?]
    end;
    cbn; (split; [reflexivity |]);
    intros e' [[He Hd] | [He1 [He Hd]]]; cbn in *; simplify_eq;
    try discriminate; split; reflexivity.
Qed.

(** C3. In every invocation of [sync_status] in which the
    identifier-probe is conclusive (it returns, or raises "gone" or "no
    content"), the metadata-probe is never invoked: the identifier-probe is
    the only remote call. *)
Theorem sync_status_probe_precedence
    (p : PersistentIdentifier) (r : R) (v : string) (raised : option exn) :
  let tr := w_trace (run (sync_status api pm) p r).2 in
  EvRemote (DoiGet v) raised ∈ tr ->
  conclusive raised = true ->
  remote_calls tr = [DoiGet (pid_value p)] /\
  forall v', MetadataGet v' ∉ remote_calls tr.
Proof.
  unfold_op. next_call; try next_call; next_local pm;
    intros Hin Hc; in_trace Hin; try discriminate;
    (split; [reflexivity |]); intros v' Hv; in_trace Hv.
Qed.

(** C7. If during either probe of [sync_status] the remote client raises
    an error other than "gone", "no content" and "not found", the operation
    raises that error, the record is left as it was and the synchronization
    mutator is not called. *)
Theorem sync_status_abort
    (p : PersistentIdentifier) (r : R) (c : Call) (e : exn) :
  let out := run (sync_status api pm) p r in
  EvRemote c (Some e) ∈ w_trace out.2 ->
  distinguished e = false ->
  out.1 = Raise e /\ w_pid out.2 = p /\ local_calls (w_trace out.2) = [].
Proof.
  unfold_op. next_call; try next_call; next_local pm;
    intros Hin Hd; in_trace Hin; try discriminate;
    repeat split; reflexivity.
Qed.

End SyncStatus.

Section Register.

Context {R : Type}.
Variable api : Call -> R -> result PyValue * R.
Variable pm : PidMethods.

(** C6. In every invocation of [register(url, doc)] the metadata-post
    is issued before the identifier-mint: once the local transition has
    returned, the metadata-post is the first remote call, and the mint is
    issued right after it exactly when it returned; if the metadata-post
    fails, it is the only remote call, its error is raised to the caller
    and no mint call is made.  In no invocation are the remote calls
    anything but an initial part of "metadata-post, then mint". *)
Theorem register_post_before_mint
    (p : PersistentIdentifier) (r : R) (url : string) (doc : PyValue) :
  let l := pid_register pm p in
  let o1 := api (MetadataPost doc) r in
  let o2 := api (DoiPost (pid_value l.2) url) o1.2 in
  let out := run (register api pm url doc) p r in
  let tr := w_trace out.2 in
  remote_calls tr `prefix_of`
    [MetadataPost doc; DoiPost (pid_value (pid_register pm p).2) url] /\
  (forall d e, EvRemote (MetadataPost d) (Some e) ∈ tr ->
     out.1 = Raise e /\ forall v u, DoiPost v u ∉ remote_calls tr) /\
  (raised_of l.1 = None -> raised_of o1.1 = None ->
     tr = [ EvLocal PidRegister;
            EvRemote (MetadataPost doc) None;
            EvRemote (DoiPost (pid_value l.2) url) (raised_of o2.1) ]) /\
  (forall e, raised_of l.1 = None -> raised_of o1.1 = Some e ->
     tr = [ EvLocal PidRegister; EvRemote (MetadataPost doc) (Some e) ] /\
     out.1 = Raise e).
Proof.
  unfold_op. next_local pm; next_call; next_call.
  all: split; [eexists; reflexivity |].
  all: split; [intros d e' Hin; in_trace Hin;
               try (split; [reflexivity |]; intros v' u' Hv; in_trace Hv) |].
  all: split; [intros H1 H2; try discriminate; reflexivity |].
  all: intros e' H1 H2; try discriminate; simplify_eq; split; reflexivity.
Qed.

End Register.

Section Update.

Context {R : Type}.
Variable api : Call -> R -> result PyValue * R.
Variable pm : PidMethods.

(** C4. For a record marked DELETED whose synchronization mutator writes
    REGISTERED when asked to, [update(url, doc)] leaves the record
    REGISTERED if and only if both remote calls (metadata-post and
    identifier-mint) return, and then reports success; if either call
    raises, that error is raised to the caller and the record is exactly as
    it was, still DELETED. *)
Theorem update_deleted_reactivates
    (p : PersistentIdentifier) (r : R) (url : string) (doc : PyValue)
    (v : PyValue) (p' : PersistentIdentifier) :
  status p = DELETED ->
  pid_sync_status pm REGISTERED p = (Ok v, p') ->
  status p' = REGISTERED ->
  let o1 := api (MetadataPost doc) r in
  let o2 := api (DoiPost (pid_value p) url) o1.2 in
  let out := run (update api pm url doc) p r in
  (status (w_pid out.2) = REGISTERED <->
   raised_of o1.1 = None /\ raised_of o2.1 = None) /\
  (raised_of o1.1 = None -> raised_of o2.1 = None -> out.1 = Ok true) /\
  (forall e, raised_of o1.1 = Some e \/
             (raised_of o1.1 = None /\ raised_of o2.1 = Some e) ->
     out.1 = Raise e /\ w_pid out.2 = p /\ status (w_pid out.2) = DELETED).
Proof.
  destruct p as [pv st]; cbn; intros -> Hsync Hst.
  unfold_op. next_call; next_call; rewrite ?Hsync; cbn;
    (split; [split; [intros H; try (rewrite H in Hst; discriminate);
                     try discriminate; try (split; reflexivity)
                    | intros [? ?]; try discriminate; try assumption]
            | split; [intros; try discriminate; try reflexivity
                     | intros e' [He | [He1 He]]; simplify_eq;
                       repeat split; reflexivity]]).
Qed.

End Update.

Section Delete.

Context {R : Type}.
Variable api : Call -> R -> result PyValue * R.
Variable pm : PidMethods.

(** C5. For an identifier in status NEW, [delete()] makes no remote call
    and leaves the remote service as it was: the local deletion is all it
    does.  For an identifier not in status NEW whose local deletion
    returns and keeps the identifier's value, [delete()] makes exactly one
    remote call, the metadata-delete of that value, besides the local
    deletion. *)
Theorem delete_remote_calls (p : PersistentIdentifier) (r : R) :
  let out := run (delete api pm) p r in
  (status p = NEW ->
     remote_calls (w_trace out.2) = [] /\
     w_remote out.2 = r /\
     local_calls (w_trace out.2) = [PidDelete] /\
     w_pid out.2 = (pid_delete pm p).2) /\
  (forall v p', status p <> NEW ->
     pid_delete pm p = (Ok v, p') ->
     pid_value p' = pid_value p ->
     remote_calls (w_trace out.2) = [MetadataDelete (pid_value p)] /\
     local_calls (w_trace out.2) = [PidDelete]).
Proof.
  destruct p as [pv st]; cbn. split.
  - intros ->. unfold_op. next_local pm; repeat split; reflexivity.
  - intros v p' Hst Hdel Hval.
    destruct st; try congruence;
      unfold_op; rewrite Hdel; cbn; rewrite Hval;
      next_call; split; reflexivity.
Qed.

(** C9. For an identifier not in status NEW, [delete()] performs the
    local deletion before the remote metadata-delete; if the remote call
    then fails, its error is raised to the caller and the record stays as
    the local deletion left it. *)
Theorem delete_local_before_remote
    (p : PersistentIdentifier) (r : R)
    (v : PyValue) (p' : PersistentIdentifier) (e : exn) (r' : R) :
  status p <> NEW ->
  pid_delete pm p = (Ok v, p') ->
  api (MetadataDelete (pid_value p')) r = (Raise e, r') ->
  let out := run (delete api pm) p r in
  w_trace out.2 =
    [EvLocal PidDelete; EvRemote (MetadataDelete (pid_value p')) (Some e)] /\
  out.1 = Raise e /\
  w_pid out.2 = p'.
Proof.
  destruct p as [pv st]; cbn. intros Hst Hdel Hapi.
  destruct st; try congruence;
    unfold_op; rewrite Hdel; cbn; rewrite Hapi; cbn;
    destruct e; repeat split; reflexivity.
Qed.

End Delete.

Section Guard.

Context {R : Type}.
Variable api : Call -> R -> result PyValue * R.
Variable pm : PidMethods.

(** C2, restricted to the operations it holds for.  In [update] and in
    [sync_status], from every starting state, a local mutator is called
    only when the whole confirmation of the operation has been received:
    in [update] after the metadata-post and the mint have both returned, in
    [sync_status] after the identifier-probe gave a conclusive answer or,
    when it raised "not found", after the metadata-probe answered; and as
    long as no mutator has been called the record is as it was.
    [register] and [delete] are built the other way round: the local
    transition is their first step, before any remote call. *)
Theorem status_guarded_update_sync (p : PersistentIdentifier) (r : R) :
  (forall url doc,
     guarded (confirms (OpUpdate url doc))
       (w_trace (run (exec api pm (OpUpdate url doc)) p r).2) = true) /\
  guarded (confirms OpSyncStatus)
    (w_trace (run (exec api pm OpSyncStatus) p r).2) = true /\
  (forall url doc, exists tr,
     w_trace (run (exec api pm (OpRegister url doc)) p r).2 =
       EvLocal PidRegister :: tr) /\
  (exists tr,
     w_trace (run (exec api pm OpDelete) p r).2 = EvLocal PidDelete :: tr) /\
  (forall url doc,
     mutations_confirmed (OpUpdate url doc) p []
       (w_trace (run (exec api pm (OpUpdate url doc)) p r).2) = true) /\
  mutations_confirmed OpSyncStatus p []
    (w_trace (run (exec api pm OpSyncStatus) p r).2) = true /\
  (forall url doc,
     local_calls (w_trace (run (exec api pm (OpUpdate url doc)) p r).2) = [] ->
     w_pid (run (exec api pm (OpUpdate url doc)) p r).2 = p) /\
  (local_calls (w_trace (run (exec api pm OpSyncStatus) p r).2) = [] ->
   w_pid (run (exec api pm OpSyncStatus) p r).2 = p).
Proof.
  split; [| split; [| split; [| split; [| split; [| split; [| split]]]]]].
  - intros url doc. destruct p as [pv []];
      unfold_op; next_call; try next_call; next_local pm; reflexivity.
  - unfold_op; next_call; try next_call; next_local pm; reflexivity.
  - intros url doc. unfold_op. next_local pm;
      try next_call; try next_call; eexists; reflexivity.
  - destruct p as [pv []]; unfold_op; next_local pm;
      try next_call; eexists; reflexivity.
  - intros url doc. destruct p as [pv []];
      unfold_op; next_call; try next_call; next_local pm;
      rewrite ?bool_decide_eq_true_2 by reflexivity; reflexivity.
  - unfold_op; next_call; try next_call; next_local pm;
      rewrite ?bool_decide_eq_true_2 by reflexivity; reflexivity.
  - intros url doc. destruct p as [pv []];
      unfold_op; next_call; try next_call; next_local pm;
      intros H; try discriminate; reflexivity.
  - unfold_op; next_call; try next_call; next_local pm;
      intros H; try discriminate; reflexivity.
Qed.

End Guard.

Section Init.

Context {C : Type}.
Variable CrossrefXMLClient : list (string * PyValue) -> C.

(** The default client is given the two credentials, the prefixes and
    the test-mode flag; absent prefixes default to the single prefix
    "10.5555" and an absent test-mode flag to [False]. *)
Lemma default_client_defaults (config : gmap string PyValue) :
  config !! "PIDSTORE_CROSSREF_DOI_PREFIXES" = None ->
  config !! "PIDSTORE_CROSSREF_TESTMODE" = None ->
  default_client_kwargs config =
    [ ("username", default PyNone (config !! "PIDSTORE_CROSSREF_USERNAME"));
      ("password", default PyNone (config !! "PIDSTORE_CROSSREF_PASSWORD"));
      ("prefixes", PyStrList ["10.5555"]);
      ("test_mode", PyBool false) ].
Proof.
  intros Hp Ht. unfold default_client_kwargs, config_get.
  rewrite Hp, Ht. reflexivity.
Qed.

(** C8, where the code departs from it.  The constructor documents
    [PIDSTORE_CROSSREF_URL] as the service URL of the default client, but
    the client is built from four keyword arguments only, none of them a
    URL: whatever the configuration says about the URL, the provider built
    is the same. *)
Theorem default_client_ignores_url
    (config : gmap string PyValue) (pid : PersistentIdentifier) (u : PyValue) :
  (default_client_kwargs (<["PIDSTORE_CROSSREF_URL" := u]> config)).*1 =
    ["username"; "password"; "prefixes"; "test_mode"] /\
  __init__ CrossrefXMLClient (<["PIDSTORE_CROSSREF_URL" := u]> config) pid None =
  __init__ CrossrefXMLClient config pid None.
Proof.
  split; [reflexivity |].
  unfold __init__, default_client_kwargs, config_get.
  rewrite !lookup_insert_ne by discriminate. reflexivity.
Qed.

(** C10. A persistent identifier created through [create] without an
    explicit status starts in status NEW, the provider's default status. *)
Theorem create_default_status
    (config : gmap string PyValue) (value : string) (kwargs : CreateKwargs C) :
  kw_status kwargs = None ->
  status (prov_pid (create CrossrefXMLClient config value kwargs)) = NEW /\
  default_status CrossrefProvider = NEW.
Proof.
  intros H. unfold create, BaseProvider_create, __init__. rewrite H.
  destruct (kw_client kwargs); split; reflexivity.
Qed.

End Init.

(** * The statements at work on concrete runs

    The runs below use the reference record of [models_pid] and a scripted
    client. *)

(** The scenarios the specification lists for [sync_status]. *)
Example scenario_gone :
  let out := run (sync_status scripted models_pid) (example_pid REGISTERED)
               [Raise CrossrefGoneError] in
  status (w_pid out.2) = DELETED /\
  remote_calls (w_trace out.2) = [DoiGet example_doi] /\
  out.1 = Ok true.
Proof. repeat split; reflexivity. Qed.

Example scenario_not_found_then_success :
  let out := run (sync_status scripted models_pid) (example_pid NEW)
               [Raise CrossrefNotFoundError; Ok PyNone] in
  status (w_pid out.2) = RESERVED /\ out.1 = Ok true.
Proof. split; reflexivity. Qed.

Example scenario_both_not_found :
  let out := run (sync_status scripted models_pid) (example_pid REGISTERED)
               [Raise CrossrefNotFoundError; Raise CrossrefNotFoundError] in
  status (w_pid out.2) = NEW /\ out.1 = Ok true.
Proof. split; reflexivity. Qed.

Example scenario_generic_error :
  let out := run (sync_status scripted models_pid) (example_pid REGISTERED)
               [Raise CrossrefError] in
  out.1 = Raise CrossrefError /\
  w_pid out.2 = example_pid REGISTERED /\
  w_log out.2 =
    [mkLog ERROR "Failed to sync status from Crossref" example_doi].
Proof. repeat split; reflexivity. Qed.

(** C1 at work: identifier-probe "not found", metadata-probe "no content";
    the mutator is called with REGISTERED. *)
Lemma sync_status_inference_table_witness :
  local_calls
    (w_trace (run (sync_status scripted models_pid) (example_pid NEW)
                [Raise CrossrefNotFoundError; Raise CrossrefNoContentError]).2)
  = [PidSyncStatus REGISTERED].
Proof.
  exact (proj1 (sync_status_inference_table scripted models_pid
                  (example_pid NEW)
                  [Raise CrossrefNotFoundError; Raise CrossrefNoContentError])).
Defined.

(** C2 as stated fails: [register] on a NEW record whose metadata-post is
    refused has already called the local transition; the operation raises
    and the record is left REGISTERED. *)
Lemma status_mutated_before_confirmation :
  guarded (confirms (OpRegister example_url example_doc))
    (w_trace (run (exec scripted models_pid
                     (OpRegister example_url example_doc))
                (example_pid NEW) [Raise CrossrefError]).2) = false /\
  (run (exec scripted models_pid (OpRegister example_url example_doc))
     (example_pid NEW) [Raise CrossrefError]).1 = Raise CrossrefError /\
  status (w_pid (run (exec scripted models_pid
                        (OpRegister example_url example_doc))
                   (example_pid NEW) [Raise CrossrefError]).2) = REGISTERED /\
  mutations_confirmed (OpRegister example_url example_doc) (example_pid NEW) []
    (w_trace (run (exec scripted models_pid
                     (OpRegister example_url example_doc))
                (example_pid NEW) [Raise CrossrefError]).2) = false.
Proof. repeat split; reflexivity. Qed.

(** C2 at work, on the operations it holds for: an [update] of a DELETED
    record whose mint is refused has called no mutator, and the record is
    still DELETED. *)
Lemma status_guarded_update_sync_witness :
  local_calls
    (w_trace (run (exec scripted models_pid
                     (OpUpdate example_url example_doc))
                (example_pid DELETED) [Ok PyNone; Raise HttpError]).2) = [] /\
  w_pid (run (exec scripted models_pid (OpUpdate example_url example_doc))
           (example_pid DELETED) [Ok PyNone; Raise HttpError]).2
  = example_pid DELETED.
Proof.
  split; [reflexivity |].
  exact (proj1 (proj2 (proj2 (proj2 (proj2 (proj2 (proj2
           (status_guarded_update_sync scripted models_pid
              (example_pid DELETED) [Ok PyNone; Raise HttpError])))))))
           example_url example_doc eq_refl).
Defined.

(** C3 at work: the identifier-probe raises "gone". *)
Lemma sync_status_probe_precedence_witness :
  EvRemote (DoiGet example_doi) (Some CrossrefGoneError) ∈
    w_trace (run (sync_status scripted models_pid) (example_pid REGISTERED)
               [Raise CrossrefGoneError; Ok PyNone]).2 /\
  conclusive (Some CrossrefGoneError) = true /\
  remote_calls
    (w_trace (run (sync_status scripted models_pid) (example_pid REGISTERED)
                [Raise CrossrefGoneError; Ok PyNone]).2) = [DoiGet example_doi].
Proof.
  assert (Hin : EvRemote (DoiGet example_doi) (Some CrossrefGoneError) ∈
    w_trace (run (sync_status scripted models_pid) (example_pid REGISTERED)
               [Raise CrossrefGoneError; Ok PyNone]).2)
    by (vm_compute; left).
  split; [exact Hin | split; [reflexivity |]].
  exact (proj1 (sync_status_probe_precedence scripted models_pid
                  (example_pid REGISTERED) [Raise CrossrefGoneError; Ok PyNone]
                  example_doi (Some CrossrefGoneError) Hin eq_refl)).
Defined.

(** C4 at work: both remote calls return and the DELETED record is
    reactivated. *)
Lemma update_deleted_reactivates_witness :
  status (example_pid DELETED) = DELETED /\
  pid_sync_status models_pid REGISTERED (example_pid DELETED) =
    (Ok (PyBool true), example_pid REGISTERED) /\
  status (w_pid (run (update scripted models_pid example_url example_doc)
                   (example_pid DELETED) []).2) = REGISTERED.
Proof.
  split; [reflexivity | split; [reflexivity |]].
  apply (proj1 (update_deleted_reactivates scripted models_pid
                  (example_pid DELETED) [] example_url example_doc
                  (PyBool true) (example_pid REGISTERED)
                  eq_refl eq_refl eq_refl)).
  split; reflexivity.
Defined.

(** C4 at work on the failure side: the mint call is refused. *)
Example update_deleted_mint_refused :
  let out := run (update scripted models_pid example_url example_doc)
               (example_pid DELETED) [Ok PyNone; Raise HttpError] in
  out.1 = Raise HttpError /\ w_pid out.2 = example_pid DELETED.
Proof. split; reflexivity. Qed.

(** C5 at work: a REGISTERED record. *)
Lemma delete_remote_calls_witness :
  status (example_pid REGISTERED) <> NEW /\
  pid_delete models_pid (example_pid REGISTERED) =
    (Ok (PyBool true), example_pid DELETED) /\
  remote_calls
    (w_trace (run (delete scripted models_pid) (example_pid REGISTERED) []).2)
  = [MetadataDelete example_doi].
Proof.
  split; [discriminate | split; [reflexivity |]].
  exact (proj1 (proj2 (delete_remote_calls scripted models_pid
                         (example_pid REGISTERED) [])
                  (PyBool true) (example_pid DELETED)
                  ltac:(discriminate) eq_refl eq_refl)).
Defined.

(** C5 at work: a NEW record. *)
Example delete_new_is_local :
  let out := run (delete scripted models_pid) (example_pid NEW)
               [Raise CrossrefError] in
  w_trace out.2 = [EvLocal PidDelete] /\
  w_remote out.2 = [Raise CrossrefError] /\
  out.1 = Ok true.
Proof. repeat split; reflexivity. Qed.

(** C6 at work: when both calls return the post and then the mint are
    issued; when the metadata-post is refused it is the only remote call. *)
Lemma register_post_before_mint_witness :
  w_trace (run (register scripted models_pid example_url example_doc)
             (example_pid NEW) []).2 =
    [ EvLocal PidRegister;
      EvRemote (MetadataPost example_doc) None;
      EvRemote (DoiPost example_doi example_url) None ] /\
  EvRemote (MetadataPost example_doc) (Some HttpError) ∈
    w_trace (run (register scripted models_pid example_url example_doc)
               (example_pid NEW) [Raise HttpError]).2 /\
  (run (register scripted models_pid example_url example_doc)
     (example_pid NEW) [Raise HttpError]).1 = Raise HttpError /\
  w_trace (run (register scripted models_pid example_url example_doc)
             (example_pid NEW) [Raise HttpError]).2 =
    [ EvLocal PidRegister;
      EvRemote (MetadataPost example_doc) (Some HttpError) ].
Proof.
  assert (Hin : EvRemote (MetadataPost example_doc) (Some HttpError) ∈
    w_trace (run (register scripted models_pid example_url example_doc)
               (example_pid NEW) [Raise HttpError]).2)
    by (vm_compute; right; left).
  split.
  { exact (proj1 (proj2 (proj2
             (register_post_before_mint scripted models_pid
                (example_pid NEW) [] example_url example_doc)))
             eq_refl eq_refl). }
  split; [exact Hin |].
  split.
  { exact (proj1 (proj1 (proj2
             (register_post_before_mint scripted models_pid
                (example_pid NEW) [Raise HttpError]
                example_url example_doc))
             example_doc HttpError Hin)). }
  exact (proj1 (proj2 (proj2 (proj2
           (register_post_before_mint scripted models_pid
              (example_pid NEW) [Raise HttpError]
              example_url example_doc)))
           HttpError eq_refl eq_refl)).
Defined.

(** C6 at work: both calls return, in order. *)
Example register_calls_in_order :
  w_trace (run (register scripted models_pid example_url example_doc)
             (example_pid NEW) []).2 =
    [ EvLocal PidRegister;
      EvRemote (MetadataPost example_doc) None;
      EvRemote (DoiPost example_doi example_url) None ].
Proof. reflexivity. Qed.

(** C7 at work: the metadata-probe ends with a transport error. *)
Lemma sync_status_abort_witness :
  EvRemote (MetadataGet example_doi) (Some HttpError) ∈
    w_trace (run (sync_status scripted models_pid) (example_pid RESERVED)
               [Raise CrossrefNotFoundError; Raise HttpError]).2 /\
  distinguished HttpError = false /\
  (run (sync_status scripted models_pid) (example_pid RESERVED)
     [Raise CrossrefNotFoundError; Raise HttpError]).1 = Raise HttpError /\
  w_pid (run (sync_status scripted models_pid) (example_pid RESERVED)
           [Raise CrossrefNotFoundError; Raise HttpError]).2
  = example_pid RESERVED.
Proof.
  assert (Hin : EvRemote (MetadataGet example_doi) (Some HttpError) ∈
    w_trace (run (sync_status scripted models_pid) (example_pid RESERVED)
               [Raise CrossrefNotFoundError; Raise HttpError]).2)
    by (vm_compute; right; left).
  split; [exact Hin | split; [reflexivity |]].
  destruct (sync_status_abort scripted models_pid (example_pid RESERVED)
              [Raise CrossrefNotFoundError; Raise HttpError]
              (MetadataGet example_doi) HttpError Hin eq_refl)
    as [Hres [Hpid _]].
  split; [exact Hres | exact Hpid].
Defined.

(** C9 at work: the remote metadata-delete is refused after the local
    deletion. *)
Lemma delete_local_before_remote_witness :
  status (example_pid REGISTERED) <> NEW /\
  pid_delete models_pid (example_pid REGISTERED) =
    (Ok (PyBool true), example_pid DELETED) /\
  scripted (MetadataDelete example_doi) [Raise CrossrefError] =
    (Raise CrossrefError, []) /\
  (run (delete scripted models_pid) (example_pid REGISTERED)
     [Raise CrossrefError]).1 = Raise CrossrefError /\
  w_pid (run (delete scripted models_pid) (example_pid REGISTERED)
           [Raise CrossrefError]).2 = example_pid DELETED.
Proof.
  split; [discriminate | split; [reflexivity | split; [reflexivity |]]].
  exact (proj2 (delete_local_before_remote scripted models_pid
                  (example_pid REGISTERED) [Raise CrossrefError]
                  (PyBool true) (example_pid DELETED) CrossrefError []
                  ltac:(discriminate) eq_refl eq_refl)).
Defined.

(** C8 at work: a configuration that sets only the service URL gives the
    client of the empty configuration, built without any URL. *)
Example default_client_url_dropped :
  prov_api (__init__ (fun kwargs => kwargs) example_config
              (example_pid NEW) None) =
    [ ("username", PyNone); ("password", PyNone);
      ("prefixes", PyStrList ["10.5555"]); ("test_mode", PyBool false) ].
Proof. reflexivity. Qed.

(** C10 at work: no keyword argument at all. *)
Lemma create_default_status_witness :
  kw_status (mkKwargs None None None None (None : option (list (string * PyValue)))) = None /\
  status (prov_pid (create (fun kwargs => kwargs) ∅ example_doi
                      (mkKwargs None None None None None))) = NEW.
Proof.
  split; [reflexivity |].
  exact (proj1 (create_default_status (fun kwargs => kwargs) ∅ example_doi
                  (mkKwargs None None None None None) eq_refl)).
Defined.

(** * Further properties of the operations *)

Section RegisterMore.

Context {R : Type}.
Variable api : Call -> R -> result PyValue * R.
Variable pm : PidMethods.

(** X1. [register] returns [True] exactly when the local transition and
    both remote calls return, and never returns [False]; on success the
    calls are the local transition, the metadata-post and the mint, the mint
    carrying the value the record has after the local transition. *)
Theorem register_succeeds_iff
    (p : PersistentIdentifier) (r : R) (url : string) (doc : PyValue) :
  let l := pid_register pm p in
  let o1 := api (MetadataPost doc) r in
  let o2 := api (DoiPost (pid_value l.2) url) o1.2 in
  let out := run (register api pm url doc) p r in
  (out.1 = Ok true <->
   raised_of l.1 = None /\ raised_of o1.1 = None /\ raised_of o2.1 = None) /\
  out.1 <> Ok false /\
  (out.1 = Ok true ->
   w_trace out.2 =
     [ EvLocal PidRegister;
       EvRemote (MetadataPost doc) None;
       EvRemote (DoiPost (pid_value l.2) url) None ] /\
   w_pid out.2 = l.2 /\
   w_remote out.2 = o2.2).
Proof.
  unfold_op. next_local pm; next_call; next_call;
    (split; [split; [intros H; try discriminate; repeat split; reflexivity
                    | intros (H1 & H2 & H3); try discriminate; reflexivity]
            | split; [discriminate
                     | intros H; try discriminate; repeat split; reflexivity]]).
Qed.

(** X2. If the local transition [pid.register()] raises, [register] raises
    the same exception without having made any remote call. *)
Theorem register_local_failure
    (p : PersistentIdentifier) (r : R) (url : string) (doc : PyValue)
    (e : exn) (p1 : PersistentIdentifier) :
  pid_register pm p = (Raise e, p1) ->
  let out := run (register api pm url doc) p r in
  out.1 = Raise e /\
  remote_calls (w_trace out.2) = [] /\
  w_remote out.2 = r /\
  w_pid out.2 = p1.
Proof.
  intros Hreg. unfold_op. rewrite Hreg. cbn.
  destruct e; repeat split; reflexivity.
Qed.

(** X3. If a remote call of [register] raises, [register] raises the same
    exception and the record stays as [pid.register()] left it: the local
    transition is not undone, and no other local mutator is called. *)
Theorem register_no_rollback
    (p : PersistentIdentifier) (r : R) (url : string) (doc : PyValue)
    (v : PyValue) (p1 : PersistentIdentifier) (c : Call) (e : exn) :
  pid_register pm p = (Ok v, p1) ->
  let out := run (register api pm url doc) p r in
  EvRemote c (Some e) ∈ w_trace out.2 ->
  out.1 = Raise e /\
  w_pid out.2 = p1 /\
  local_calls (w_trace out.2) = [PidRegister].
Proof.
  intros Hreg. unfold_op. rewrite Hreg. cbn.
  next_call; try next_call; intros Hin; in_trace Hin;
    repeat split; reflexivity.
Qed.

End RegisterMore.

Section UpdateMore.

Context {R : Type}.
Variable api : Call -> R -> result PyValue * R.
Variable pm : PidMethods.

(** X4. In every invocation of [update] the remote calls are an initial
    part of "metadata-post of the document, then mint of the record's value
    at the URL"; if the metadata-post fails, its error is raised and the
    mint is not attempted. *)
Theorem update_post_before_mint
    (p : PersistentIdentifier) (r : R) (url : string) (doc : PyValue) :
  let out := run (update api pm url doc) p r in
  let tr := w_trace out.2 in
  remote_calls tr `prefix_of`
    [MetadataPost doc; DoiPost (pid_value p) url] /\
  (forall d e, EvRemote (MetadataPost d) (Some e) ∈ tr ->
     out.1 = Raise e /\ forall v u, DoiPost v u ∉ remote_calls tr).
Proof.
  destruct p as [pv []]; unfold_op; next_call; try next_call; next_local pm.
  all: try (split; [eexists; reflexivity |];
    intros d e' Hin; in_trace Hin;
    try (split; [reflexivity |]; intros v' u' Hv; in_trace Hv)).
Qed.

(** X5. Whatever the status of the record, if a remote call of [update]
    raises, [update] raises the same exception, no local mutator is called
    and the record is exactly as it was. *)
Theorem update_failure_leaves_record
    (p : PersistentIdentifier) (r : R) (url : string) (doc : PyValue)
    (c : Call) (e : exn) :
  let out := run (update api pm url doc) p r in
  EvRemote c (Some e) ∈ w_trace out.2 ->
  out.1 = Raise e /\
  w_pid out.2 = p /\
  local_calls (w_trace out.2) = [].
Proof.
  destruct p as [pv []]; unfold_op; next_call; try next_call; next_local pm;
    intros Hin; in_trace Hin; repeat split; reflexivity.
Qed.

(** X6. On a record that is not marked DELETED, [update] never calls a
    local mutator and leaves the record as it was, whether the remote calls
    return or not; it returns [True] exactly when both remote calls
    return. *)
Theorem update_not_deleted
    (p : PersistentIdentifier) (r : R) (url : string) (doc : PyValue) :
  status p <> DELETED ->
  let o1 := api (MetadataPost doc) r in
  let o2 := api (DoiPost (pid_value p) url) o1.2 in
  let out := run (update api pm url doc) p r in
  local_calls (w_trace out.2) = [] /\
  w_pid out.2 = p /\
  (out.1 = Ok true <-> raised_of o1.1 = None /\ raised_of o2.1 = None).
Proof.
  destruct p as [pv st]; cbn; intros Hst.
  destruct st; try congruence;
    unfold_op; next_call; next_call;
    (split; [reflexivity | split; [reflexivity |]]);
    (split; [intros H; try discriminate; split; reflexivity
            | intros [H1 H2]; try discriminate; reflexivity]).
Qed.

End UpdateMore.

Section DeleteMore.

Context {R : Type}.
Variable api : Call -> R -> result PyValue * R.
Variable pm : PidMethods.

(** X7. Whatever the status of the record, if the local deletion
    [pid.delete()] raises, [delete] raises the same exception and the remote
    metadata-delete is not attempted. *)
Theorem delete_local_failure
    (p : PersistentIdentifier) (r : R) (e : exn) (p1 : PersistentIdentifier) :
  pid_delete pm p = (Raise e, p1) ->
  let out := run (delete api pm) p r in
  out.1 = Raise e /\
  remote_calls (w_trace out.2) = [] /\
  w_remote out.2 = r /\
  w_pid out.2 = p1.
Proof.
  intros Hdel. destruct p as [pv []]; unfold_op; rewrite Hdel; cbn;
    destruct e; repeat split; reflexivity.
Qed.

(** X8. [delete] returns [True] exactly when the local deletion returns
    and, for a record that was not NEW before it, the remote
    metadata-delete returns too; whether the record is NEW is read before
    the local deletion, and the value sent is read after it.  [delete]
    never returns [False]. *)
Theorem delete_succeeds_iff (p : PersistentIdentifier) (r : R) :
  let l := pid_delete pm p in
  let o := api (MetadataDelete (pid_value l.2)) r in
  let out := run (delete api pm) p r in
  (out.1 = Ok true <->
   raised_of l.1 = None /\ (status p = NEW \/ raised_of o.1 = None)) /\
  out.1 <> Ok false.
Proof.
  destruct p as [pv []]; unfold_op; next_local pm; try next_call;
    (split; [split; [intros H; try discriminate; split;
                       first [reflexivity | left; reflexivity
                             | right; reflexivity]
                    | intros [H1 [H2 | H2]]; try discriminate; reflexivity]
            | discriminate]).
Qed.

End DeleteMore.

Section SyncStatusMore.

Context {R : Type}.
Variable api : Call -> R -> result PyValue * R.
Variable pm : PidMethods.

(** X9. [sync_status] only reads the remote service: it always makes the
    identifier-probe first, on the record's value, and makes the
    metadata-probe, on the same value, exactly when the identifier-probe
    raised "not found"; it makes no other remote call. *)
Theorem sync_status_remote_calls (p : PersistentIdentifier) (r : R) :
  let o1 := api (DoiGet (pid_value p)) r in
  let out := run (sync_status api pm) p r in
  remote_calls (w_trace out.2) =
    (if decide (raised_of o1.1 = Some CrossrefNotFoundError)
     then [DoiGet (pid_value p); MetadataGet (pid_value p)]
     else [DoiGet (pid_value p)]) /\
  w_remote out.2 =
    (if decide (raised_of o1.1 = Some CrossrefNotFoundError)
     then (api (MetadataGet (pid_value p)) o1.2).2
     else o1.2).
Proof.
  unfold_op. next_call; try next_call; next_local pm; split; reflexivity.
Qed.

(** X10. What [sync_status] asks the remote service and which status it
    hands to the mutator do not depend on the status the record has
    locally: two records with the same value give the same trace and leave
    the remote service in the same state. *)
Theorem sync_status_ignores_local_status
    (value : string) (s s' : PIDStatus) (r : R) :
  let out := run (sync_status api pm) (mkPid value s) r in
  let out' := run (sync_status api pm) (mkPid value s') r in
  w_trace out.2 = w_trace out'.2 /\ w_remote out.2 = w_remote out'.2.
Proof.
  unfold_op. next_call; try next_call; next_local pm; split; reflexivity.
Qed.

End SyncStatusMore.

Section SyncStatusTwice.

Context {R : Type}.
Variable f : Call -> result PyValue.
Variable pm : PidMethods.

(** X11. Against a remote service that does not change, and with a
    mutator that writes the status it is given and keeps the value, a second
    [sync_status] right after the first ends as the first did and leaves
    the record as the first left it. *)
Theorem sync_status_twice (p : PersistentIdentifier) (r : R) :
  (forall s q, exists v,
     pid_sync_status pm s q = (Ok v, mkPid (pid_value q) s)) ->
  let out1 := run (sync_status (stateless f) pm) p r in
  let out2 := sync_status (stateless f) pm out1.2 in
  out2.1 = out1.1 /\ w_pid out2.2 = w_pid out1.2.
Proof.
  intros Hsync. unfold_op. unfold stateless.
  destruct (f (DoiGet (pid_value p))) as [? | []] eqn:E1; cbn;
    try destruct (f (MetadataGet (pid_value p))) as [? | []] eqn:E2; cbn.
  all: repeat first
    [ progress (rewrite ?E1; cbn; rewrite ?E2; cbn)
    | match goal with
      | |- context [pid_sync_status pm ?s ?q] =>
          let v := fresh "v" in
          let H := fresh "H" in
          destruct (Hsync s q) as [v H]; rewrite H; clear H; cbn
      end ].
  all: split; reflexivity.
Qed.

End SyncStatusTwice.

Section Logging.

Context {R : Type}.
Variable api : Call -> R -> result PyValue * R.
Variable pm : PidMethods.

(** X12. In each of the four operations, the success record is the last
    record of the log exactly when the operation returns [True], and an
    operation that returns has written no failure record. *)
Theorem success_logged (op : Operation) (p : PersistentIdentifier) (r : R) :
  let out := run (exec api pm op) p r in
  (out.1 = Ok true <->
   last (w_log out.2) =
     Some (mkLog INFO (success_msg op) (pid_value (w_pid out.2)))) /\
  (out.1 = Ok true -> error_records (w_log out.2) = []).
Proof.
  destruct op as [url doc | url doc | |]; destruct p as [pv []];
    unfold_op; next_local pm; try next_call; try next_call; next_local pm;
    (split; [split; [intros H; try discriminate; reflexivity
                    | intros H; try discriminate; reflexivity]
            | intros H; try discriminate; reflexivity]).
Qed.

(** X13. In each of the four operations, a remote call that raises
    [CrossrefError] or [HttpError] makes the operation raise that error
    after writing exactly one failure record, the operation's own, as the
    last record of the log. *)
Theorem failure_logged
    (op : Operation) (p : PersistentIdentifier) (r : R) (c : Call) (e : exn) :
  let out := run (exec api pm op) p r in
  EvRemote c (Some e) ∈ w_trace out.2 ->
  e = CrossrefError \/ e = HttpError ->
  out.1 = Raise e /\
  last (w_log out.2) =
    Some (mkLog ERROR (failure_msg op) (pid_value (w_pid out.2))) /\
  error_records (w_log out.2) =
    [mkLog ERROR (failure_msg op) (pid_value (w_pid out.2))].
Proof.
  destruct op as [url doc | url doc | |]; destruct p as [pv []];
    unfold_op; next_local pm; try next_call; try next_call; next_local pm;
    intros Hin He; in_trace Hin; destruct He; try discriminate;
    repeat split; reflexivity.
Qed.

(** X14. In each of the four operations, a remote call that raises an
    exception outside the [CrossrefError] and [HttpError] families makes the
    operation raise that exception without writing any failure record: the
    except clause does not catch it. *)
Theorem foreign_exception_not_logged
    (op : Operation) (p : PersistentIdentifier) (r : R) (c : Call) :
  let out := run (exec api pm op) p r in
  EvRemote c (Some OtherException) ∈ w_trace out.2 ->
  out.1 = Raise OtherException /\ error_records (w_log out.2) = [].
Proof.
  destruct op as [url doc | url doc | |]; destruct p as [pv []];
    unfold_op; next_local pm; try next_call; try next_call; next_local pm;
    intros Hin; in_trace Hin; split; reflexivity.
Qed.

End Logging.

Section InitMore.

Context {C : Type}.
Variable CrossrefXMLClient : list (string * PyValue) -> C.

(** X15. The constructor reads the configuration through four keys only,
    and only when no client is supplied: two configurations that agree on
    the user name, the password, the prefixes and the test-mode flag give
    the same provider, and a supplied client is stored as it is whatever
    the configuration holds. *)
Theorem init_reads_four_keys
    (config config' : gmap string PyValue) (pid : PersistentIdentifier) :
  (forall k,
     k ∈ [ "PIDSTORE_CROSSREF_USERNAME"; "PIDSTORE_CROSSREF_PASSWORD";
           "PIDSTORE_CROSSREF_DOI_PREFIXES"; "PIDSTORE_CROSSREF_TESTMODE" ] ->
     config !! k = config' !! k) ->
  __init__ CrossrefXMLClient config pid None =
  __init__ CrossrefXMLClient config' pid None /\
  (forall c, __init__ CrossrefXMLClient config pid (Some c) =
             __init__ CrossrefXMLClient config' pid (Some c) /\
             prov_api (__init__ CrossrefXMLClient config pid (Some c)) = c).
Proof.
  intros Hk. split; [| intros c; split; reflexivity].
  unfold __init__, default_client_kwargs, config_get.
  rewrite !Hk by (apply list_elem_of_In; cbn; tauto).
  reflexivity.
Qed.

End InitMore.

Section Composition.

Context {R : Type}.
Variable api : Call -> R -> result PyValue * R.
Variable pm : PidMethods.

(** X16. A [register] whose metadata-post is refused leaves the record as
    the local transition marked it; if that record is no longer NEW, a
    [delete] that follows sends a remote metadata-delete for an identifier
    the remote service never accepted. *)
Theorem failed_register_then_delete
    (p : PersistentIdentifier) (r : R) (url : string) (doc : PyValue)
    (v v' : PyValue) (p1 p2 : PersistentIdentifier) (e : exn) (r1 : R) :
  pid_register pm p = (Ok v, p1) ->
  api (MetadataPost doc) r = (Raise e, r1) ->
  status p1 <> NEW ->
  pid_delete pm p1 = (Ok v', p2) ->
  let out1 := run (register api pm url doc) p r in
  let out2 := delete api pm out1.2 in
  out1.1 = Raise e /\
  remote_calls (w_trace out2.2) =
    [MetadataPost doc; MetadataDelete (pid_value p2)].
Proof.
  intros Hreg Hpost Hst Hdel. unfold_op. rewrite Hreg. cbn.
  rewrite Hpost. cbn.
  destruct p1 as [pv1 st1]; cbn in Hst.
  destruct e, st1; try congruence; cbn; rewrite Hdel; cbn;
    next_call; split; reflexivity.
Qed.

(** X17. Reactivation round trip.  With a local deletion that marks the
    record DELETED and a mutator that writes REGISTERED, and a remote
    service that accepts every call, [delete] on a record that is not NEW
    followed by [update] returns [True], leaves the record REGISTERED and
    has made three remote calls: the metadata-delete, the metadata-post and
    the mint. *)
Theorem delete_then_update
    (p : PersistentIdentifier) (r : R) (url : string) (doc : PyValue)
    (v v' : PyValue) (p1 p2 : PersistentIdentifier) :
  status p <> NEW ->
  pid_delete pm p = (Ok v, p1) ->
  status p1 = DELETED ->
  pid_sync_status pm REGISTERED p1 = (Ok v', p2) ->
  status p2 = REGISTERED ->
  (forall c r', raised_of (api c r').1 = None) ->
  let out1 := run (delete api pm) p r in
  let out2 := update api pm url doc out1.2 in
  out1.1 = Ok true /\
  out2.1 = Ok true /\
  status (w_pid out2.2) = REGISTERED /\
  remote_calls (w_trace out2.2) =
    [ MetadataDelete (pid_value p1); MetadataPost doc;
      DoiPost (pid_value p1) url ].
Proof.
  intros Hst Hdel Hst1 Hsync Hst2 Hapi.
  destruct p as [pv st], p1 as [pv1 st1]; cbn in Hst, Hst1; subst st1.
  destruct st; try congruence; unfold_op; rewrite Hdel; cbn.
  all: repeat match goal with
    | |- context [api ?c ?r'] =>
        let E := fresh "E" in
        let H := fresh "H" in
        pose proof (Hapi c r') as H;
        destruct (api c r') as [[? | ?] ?] eqn:E; cbn in H; try discriminate;
        clear H; cbn
    end.
  all: rewrite Hsync; cbn; repeat split; try reflexivity; exact Hst2.
Qed.

End Composition.

(** * The further properties at work on concrete runs *)

(** A remote service that accepts every call. *)
Lemma register_succeeds_iff_witness :
  (run (register (stateless (fun _ => Ok PyNone)) models_pid
          example_url example_doc) (example_pid NEW) tt).1 = Ok true.
Proof.
  apply (proj1 (register_succeeds_iff (stateless (fun _ => Ok PyNone))
                  models_pid (example_pid NEW) tt example_url example_doc)).
  repeat split; reflexivity.
Defined.

(** The record refuses the transition. *)
Lemma register_local_failure_witness :
  pid_register (refusing_pid OtherException) (example_pid REGISTERED) =
    (Raise OtherException, example_pid REGISTERED) /\
  (run (register scripted (refusing_pid OtherException)
          example_url example_doc) (example_pid REGISTERED) []).1
  = Raise OtherException /\
  remote_calls
    (w_trace (run (register scripted (refusing_pid OtherException)
                     example_url example_doc) (example_pid REGISTERED) []).2)
  = [].
Proof.
  split; [reflexivity |].
  destruct (register_local_failure scripted (refusing_pid OtherException)
              (example_pid REGISTERED) [] example_url example_doc
              OtherException (example_pid REGISTERED) eq_refl)
    as (H1 & H2 & _).
  split; [exact H1 | exact H2].
Defined.

(** The mint is refused after the metadata-post was accepted. *)
Lemma register_no_rollback_witness :
  pid_register models_pid (example_pid NEW) =
    (Ok (PyBool true), example_pid REGISTERED) /\
  EvRemote (DoiPost example_doi example_url) (Some HttpError) ∈
    w_trace (run (register scripted models_pid example_url example_doc)
               (example_pid NEW) [Ok PyNone; Raise HttpError]).2 /\
  w_pid (run (register scripted models_pid example_url example_doc)
           (example_pid NEW) [Ok PyNone; Raise HttpError]).2
  = example_pid REGISTERED.
Proof.
  assert (Hin : EvRemote (DoiPost example_doi example_url) (Some HttpError) ∈
    w_trace (run (register scripted models_pid example_url example_doc)
               (example_pid NEW) [Ok PyNone; Raise HttpError]).2)
    by (vm_compute; right; right; left).
  split; [reflexivity | split; [exact Hin |]].
  exact (proj1 (proj2 (register_no_rollback scripted models_pid
                         (example_pid NEW) [Ok PyNone; Raise HttpError]
                         example_url example_doc (PyBool true)
                         (example_pid REGISTERED)
                         (DoiPost example_doi example_url) HttpError
                         eq_refl Hin))).
Defined.

(** The metadata-post of an update is refused. *)
Lemma update_post_before_mint_witness :
  EvRemote (MetadataPost example_doc) (Some CrossrefError) ∈
    w_trace (run (update scripted models_pid example_url example_doc)
               (example_pid REGISTERED) [Raise CrossrefError]).2 /\
  (run (update scripted models_pid example_url example_doc)
     (example_pid REGISTERED) [Raise CrossrefError]).1 = Raise CrossrefError.
Proof.
  assert (Hin : EvRemote (MetadataPost example_doc) (Some CrossrefError) ∈
    w_trace (run (update scripted models_pid example_url example_doc)
               (example_pid REGISTERED) [Raise CrossrefError]).2)
    by (vm_compute; left).
  split; [exact Hin |].
  exact (proj1 (proj2 (update_post_before_mint scripted models_pid
                         (example_pid REGISTERED) [Raise CrossrefError]
                         example_url example_doc)
                  example_doc CrossrefError Hin)).
Defined.

(** The mint of an update on a RESERVED record is refused. *)
Lemma update_failure_leaves_record_witness :
  EvRemote (DoiPost example_doi example_url) (Some HttpError) ∈
    w_trace (run (update scripted models_pid example_url example_doc)
               (example_pid RESERVED) [Ok PyNone; Raise HttpError]).2 /\
  w_pid (run (update scripted models_pid example_url example_doc)
           (example_pid RESERVED) [Ok PyNone; Raise HttpError]).2
  = example_pid RESERVED.
Proof.
  assert (Hin : EvRemote (DoiPost example_doi example_url) (Some HttpError) ∈
    w_trace (run (update scripted models_pid example_url example_doc)
               (example_pid RESERVED) [Ok PyNone; Raise HttpError]).2)
    by (vm_compute; right; left).
  split; [exact Hin |].
  exact (proj1 (proj2 (update_failure_leaves_record scripted models_pid
                         (example_pid RESERVED) [Ok PyNone; Raise HttpError]
                         example_url example_doc
                         (DoiPost example_doi example_url) HttpError Hin))).
Defined.

(** An update of a REGISTERED record. *)
Lemma update_not_deleted_witness :
  status (example_pid REGISTERED) <> DELETED /\
  local_calls
    (w_trace (run (update scripted models_pid example_url example_doc)
                (example_pid REGISTERED) []).2) = [] /\
  w_pid (run (update scripted models_pid example_url example_doc)
           (example_pid REGISTERED) []).2 = example_pid REGISTERED.
Proof.
  split; [discriminate |].
  destruct (update_not_deleted scripted models_pid (example_pid REGISTERED) []
              example_url example_doc ltac:(discriminate))
    as (H1 & H2 & _).
  split; [exact H1 | exact H2].
Defined.

(** The local deletion fails on a REGISTERED record. *)
Lemma delete_local_failure_witness :
  pid_delete (refusing_pid OtherException) (example_pid REGISTERED) =
    (Raise OtherException, example_pid REGISTERED) /\
  remote_calls
    (w_trace (run (delete scripted (refusing_pid OtherException))
                (example_pid REGISTERED) []).2) = [].
Proof.
  split; [reflexivity |].
  exact (proj1 (proj2 (delete_local_failure scripted
                         (refusing_pid OtherException)
                         (example_pid REGISTERED) [] OtherException
                         (example_pid REGISTERED) eq_refl))).
Defined.

(** A NEW record is deleted although the remote service is down. *)
Lemma delete_succeeds_iff_witness :
  (run (delete (stateless (fun _ => Raise HttpError)) models_pid)
     (example_pid NEW) tt).1 = Ok true.
Proof.
  apply (proj1 (delete_succeeds_iff (stateless (fun _ => Raise HttpError))
                  models_pid (example_pid NEW) tt)).
  split; [reflexivity | left; reflexivity].
Defined.

(** The identifier is unknown to the identifier endpoint and known to the
    metadata endpoint: twice RESERVED. *)
Lemma sync_status_twice_witness :
  w_pid
    (sync_status
       (stateless (fun c => match c with
                            | DoiGet _ => Raise CrossrefNotFoundError
                            | _ => Ok PyNone
                            end)) models_pid
       (run (sync_status
               (stateless (fun c => match c with
                                    | DoiGet _ => Raise CrossrefNotFoundError
                                    | _ => Ok PyNone
                                    end)) models_pid)
          (example_pid NEW) tt).2).2
  = example_pid RESERVED.
Proof.
  exact (eq_trans
    (proj2 (sync_status_twice
              (fun c => match c with
                        | DoiGet _ => Raise CrossrefNotFoundError
                        | _ => Ok PyNone
                        end) models_pid (example_pid NEW) tt
              (fun s q => ex_intro _ (PyBool true) eq_refl)))
    eq_refl).
Defined.

(** A successful delete of a REGISTERED record. *)
Lemma success_logged_witness :
  (run (exec scripted models_pid OpDelete) (example_pid REGISTERED) []).1
    = Ok true /\
  last (w_log (run (exec scripted models_pid OpDelete)
                 (example_pid REGISTERED) []).2)
    = Some (mkLog INFO "Successfully deleted in Crossref" example_doi).
Proof.
  split; [reflexivity |].
  exact (proj1 (proj1 (success_logged scripted models_pid OpDelete
                         (example_pid REGISTERED) [])) eq_refl).
Defined.

(** A delete whose remote call is refused. *)
Lemma failure_logged_witness :
  EvRemote (MetadataDelete example_doi) (Some CrossrefError) ∈
    w_trace (run (exec scripted models_pid OpDelete)
               (example_pid REGISTERED) [Raise CrossrefError]).2 /\
  error_records
    (w_log (run (exec scripted models_pid OpDelete)
              (example_pid REGISTERED) [Raise CrossrefError]).2)
  = [mkLog ERROR "Failed to delete in Crossref" example_doi].
Proof.
  assert (Hin : EvRemote (MetadataDelete example_doi) (Some CrossrefError) ∈
    w_trace (run (exec scripted models_pid OpDelete)
               (example_pid REGISTERED) [Raise CrossrefError]).2)
    by (vm_compute; right; left).
  split; [exact Hin |].
  exact (proj2 (proj2 (failure_logged scripted models_pid OpDelete
                         (example_pid REGISTERED) [Raise CrossrefError]
                         (MetadataDelete example_doi) CrossrefError
                         Hin (or_introl eq_refl)))).
Defined.

(** A probe that ends with an exception of another family. *)
Lemma foreign_exception_not_logged_witness :
  EvRemote (DoiGet example_doi) (Some OtherException) ∈
    w_trace (run (exec scripted models_pid OpSyncStatus)
               (example_pid REGISTERED) [Raise OtherException]).2 /\
  w_log (run (exec scripted models_pid OpSyncStatus)
           (example_pid REGISTERED) [Raise OtherException]).2 = [] /\
  error_records
    (w_log (run (exec scripted models_pid OpSyncStatus)
              (example_pid REGISTERED) [Raise OtherException]).2) = [].
Proof.
  assert (Hin : EvRemote (DoiGet example_doi) (Some OtherException) ∈
    w_trace (run (exec scripted models_pid OpSyncStatus)
               (example_pid REGISTERED) [Raise OtherException]).2)
    by (vm_compute; left).
  split; [exact Hin | split; [reflexivity |]].
  exact (proj2 (foreign_exception_not_logged scripted models_pid OpSyncStatus
                  (example_pid REGISTERED) [Raise OtherException]
                  (DoiGet example_doi) Hin)).
Defined.

(** A configuration that sets only the service URL agrees with the empty
    one on the four keys. *)
Lemma init_reads_four_keys_witness :
  __init__ (fun kwargs => kwargs) example_config (example_pid NEW) None =
  __init__ (fun kwargs => kwargs) ∅ (example_pid NEW) None.
Proof.
  refine (proj1 (init_reads_four_keys (fun kwargs => kwargs)
                   example_config ∅ (example_pid NEW) _)).
  intros k Hk. apply list_elem_of_In in Hk. cbn in Hk.
  destruct Hk as [<- | [<- | [<- | [<- | []]]]]; reflexivity.
Defined.

(** The metadata-post of a register is refused; the delete that follows
    reaches the remote service. *)
Lemma failed_register_then_delete_witness :
  pid_register models_pid (example_pid NEW) =
    (Ok (PyBool true), example_pid REGISTERED) /\
  scripted (MetadataPost example_doc) [Raise CrossrefError] =
    (Raise CrossrefError, []) /\
  status (example_pid REGISTERED) <> NEW /\
  pid_delete models_pid (example_pid REGISTERED) =
    (Ok (PyBool true), example_pid DELETED) /\
  remote_calls
    (w_trace
       (delete scripted models_pid
          (run (register scripted models_pid example_url example_doc)
             (example_pid NEW) [Raise CrossrefError]).2).2)
  = [MetadataPost example_doc; MetadataDelete example_doi].
Proof.
  split; [reflexivity | split; [reflexivity | split; [discriminate |]]].
  split; [reflexivity |].
  exact (proj2 (failed_register_then_delete scripted models_pid
                  (example_pid NEW) [Raise CrossrefError]
                  example_url example_doc (PyBool true) (PyBool true)
                  (example_pid REGISTERED) (example_pid DELETED)
                  CrossrefError [] eq_refl eq_refl
                  ltac:(discriminate) eq_refl)).
Defined.

(** A REGISTERED record is deleted and then updated. *)
Lemma delete_then_update_witness :
  status (example_pid REGISTERED) <> NEW /\
  pid_delete models_pid (example_pid REGISTERED) =
    (Ok (PyBool true), example_pid DELETED) /\
  pid_sync_status models_pid REGISTERED (example_pid DELETED) =
    (Ok (PyBool true), example_pid REGISTERED) /\
  status
    (w_pid
       (update (stateless (fun _ => Ok PyNone)) models_pid
          example_url example_doc
          (run (delete (stateless (fun _ => Ok PyNone)) models_pid)
             (example_pid REGISTERED) tt).2).2) = REGISTERED.
Proof.
  split; [discriminate | split; [reflexivity | split; [reflexivity |]]].
  exact (proj1 (proj2 (proj2
    (delete_then_update (stateless (fun _ => Ok PyNone)) models_pid
       (example_pid REGISTERED) tt example_url example_doc
       (PyBool true) (PyBool true)
       (example_pid DELETED) (example_pid REGISTERED)
       ltac:(discriminate) eq_refl eq_refl eq_refl eq_refl
       (fun c r' => eq_refl))))).
Defined.
